(** * The [User] entity of the backend (backend/src/user/user.entity.ts)

    A shallow embedding of the entity's data and of its three methods
    [canLogIn], [resetPassword] and [isRightPassword], together with the
    parts of the account core that the specification describes around it
    (the e-mail confirmation transition and the phone-number rule of the
    registration validator).

    JavaScript values are embedded as follows.
    - a [Date] is the integer [getTime()] gives: milliseconds since the epoch;
    - a nullable column is an [option]; [None] stands for both [null] and
      [undefined], which the loose comparison [!= null] does not tell apart;
    - a string handed to the hashing library is the byte string the library
      sees (its UTF-8 encoding), a [string] of Rocq;
    - a [Promise] is the outcome it settles to, [Resolved] or [Rejected],
      and the mutations made on [this] before it settles are kept. *)

From Stdlib Require Import ZArith NArith List String Ascii Bool Lia.
Import ListNotations.

Local Open Scope Z_scope.
Local Open Scope string_scope.

(* ================================================================== *)
(** ** Values *)

Definition Date : Type := Z.

(** A duration of [n] seconds, in the milliseconds dates count. *)
Definition seconds (n : Z) : Z := n * 1000.

(** What a promise of the core can be rejected with: a JavaScript [Error]
    carrying a message, or one of the typed errors the specification names. *)
Inductive Error : Type :=
| JsError (message : string)
| WeakPassword
| InvalidOrExpiredToken.

Inductive Outcome (A : Type) : Type :=
| Resolved (a : A)
| Rejected (e : Error).

Arguments Resolved {A} a.
Arguments Rejected {A} e.

(** [v != null] of JavaScript, on a nullable value. *)
Definition not_null {A : Type} (v : option A) : bool :=
  match v with
  | Some _ => true
  | None => false
  end.

(* ================================================================== *)
(** ** The world around the entity: clock and randomness *)

(** Sixteen bytes of [crypto.randomBytes], which the hashing library draws
    for each salt. *)
Definition Entropy : Type := list Byte.byte.

(** [clock] is what [new Date()] reads now.  Every [await] suspends the
    caller; [delay w n] is how long the [n]-th suspension lasts, in
    milliseconds.  [randomBytes w n] is the [n]-th draw of the generator. *)
Record World : Type := mkWorld {
  clock : Date;
  suspensions : nat;
  delay : nat -> N;
  draws : nat;
  randomBytes : nat -> Entropy
}.

Definition suspend (w : World) : World :=
  {| clock := clock w + Z.of_N (delay w (suspensions w));
     suspensions := S (suspensions w);
     delay := delay w;
     draws := draws w;
     randomBytes := randomBytes w |}.

Definition draw (w : World) : Entropy * World :=
  (randomBytes w (draws w),
   {| clock := clock w;
      suspensions := suspensions w;
      delay := delay w;
      draws := S (draws w);
      randomBytes := randomBytes w |}).

(** An asynchronous operation of a library: it reads and moves the world and
    settles. *)
Definition Async (A : Type) : Type := World -> Outcome A * World.

(* ================================================================== *)
(** ** The record *)

(** Modelled from the spec: the [phoneNumber] column.  The entity source
    declares no such field yet; the specification's data model adds it as a
    normalized international-format string, nullable for records created
    before the field existed. *)
Definition PhoneNumber : Type := option string.

Record User : Type := mkUser {
  id : Z;
  createdAt : Date;
  updatedAt : Date;
  publicId : string;
  displayName : string;
  confirmedEmail : option string;
  pendingEmail : string;
  emailConfirmationToken : option string;
  emailConfirmationRequestedAt : Date;
  emailConfirmationCompletedAt : option Date;
  securityOperationPerformedAt : option Date;
  passwordHash : option string;
  phoneNumber : PhoneNumber
}.

(** static EMAIL_CONFIRMATION_TIMEOUT_SECONDS = 3*24*3600 *)
Definition EMAIL_CONFIRMATION_TIMEOUT_SECONDS : Z := 3 * 24 * 3600.

(** static SALT_ROUNDS = 10 *)
Definition SALT_ROUNDS : Z := 10.

(** Assignments to the fields the methods write. *)
Definition with_passwordHash (h : option string) (u : User) : User :=
  {| id := id u; createdAt := createdAt u; updatedAt := updatedAt u;
     publicId := publicId u; displayName := displayName u;
     confirmedEmail := confirmedEmail u; pendingEmail := pendingEmail u;
     emailConfirmationToken := emailConfirmationToken u;
     emailConfirmationRequestedAt := emailConfirmationRequestedAt u;
     emailConfirmationCompletedAt := emailConfirmationCompletedAt u;
     securityOperationPerformedAt := securityOperationPerformedAt u;
     passwordHash := h;
     phoneNumber := phoneNumber u |}.

Definition with_securityOperationPerformedAt (d : option Date) (u : User)
  : User :=
  {| id := id u; createdAt := createdAt u; updatedAt := updatedAt u;
     publicId := publicId u; displayName := displayName u;
     confirmedEmail := confirmedEmail u; pendingEmail := pendingEmail u;
     emailConfirmationToken := emailConfirmationToken u;
     emailConfirmationRequestedAt := emailConfirmationRequestedAt u;
     emailConfirmationCompletedAt := emailConfirmationCompletedAt u;
     securityOperationPerformedAt := d;
     passwordHash := passwordHash u;
     phoneNumber := phoneNumber u |}.

Definition with_confirmedEmail (e : option string) (u : User) : User :=
  {| id := id u; createdAt := createdAt u; updatedAt := updatedAt u;
     publicId := publicId u; displayName := displayName u;
     confirmedEmail := e; pendingEmail := pendingEmail u;
     emailConfirmationToken := emailConfirmationToken u;
     emailConfirmationRequestedAt := emailConfirmationRequestedAt u;
     emailConfirmationCompletedAt := emailConfirmationCompletedAt u;
     securityOperationPerformedAt := securityOperationPerformedAt u;
     passwordHash := passwordHash u;
     phoneNumber := phoneNumber u |}.

Definition with_emailConfirmationToken (t : option string) (u : User)
  : User :=
  {| id := id u; createdAt := createdAt u; updatedAt := updatedAt u;
     publicId := publicId u; displayName := displayName u;
     confirmedEmail := confirmedEmail u; pendingEmail := pendingEmail u;
     emailConfirmationToken := t;
     emailConfirmationRequestedAt := emailConfirmationRequestedAt u;
     emailConfirmationCompletedAt := emailConfirmationCompletedAt u;
     securityOperationPerformedAt := securityOperationPerformedAt u;
     passwordHash := passwordHash u;
     phoneNumber := phoneNumber u |}.

Definition with_emailConfirmationCompletedAt (d : option Date) (u : User)
  : User :=
  {| id := id u; createdAt := createdAt u; updatedAt := updatedAt u;
     publicId := publicId u; displayName := displayName u;
     confirmedEmail := confirmedEmail u; pendingEmail := pendingEmail u;
     emailConfirmationToken := emailConfirmationToken u;
     emailConfirmationRequestedAt := emailConfirmationRequestedAt u;
     emailConfirmationCompletedAt := d;
     securityOperationPerformedAt := securityOperationPerformedAt u;
     passwordHash := passwordHash u;
     phoneNumber := phoneNumber u |}.

(* ================================================================== *)
(** ** Methods: computations on [this] and the world that may reject *)

Definition Method (A : Type) : Type :=
  User -> World -> Outcome A * User * World.

Definition ret {A : Type} (a : A) : Method A :=
  fun this w => (Resolved a, this, w).

Definition throw {A : Type} (e : Error) : Method A :=
  fun this w => (Rejected e, this, w).

Definition bind {A B : Type} (m : Method A) (k : A -> Method B) : Method B :=
  fun this w =>
    match m this w with
    | (Resolved a, this', w') => k a this' w'
    | (Rejected e, this', w') => (Rejected e, this', w')
    end.

Notation "x <- m ;; k" := (bind m (fun x => k))
  (at level 61, m at next level, right associativity).
Notation "m ;;; k" := (bind m (fun _ => k))
  (at level 61, right associativity).

(** [this.f] *)
Definition read {A : Type} (f : User -> A) : Method A :=
  fun this w => (Resolved (f this), this, w).

(** [this.f = v], by the field's update function *)
Definition assign (upd : User -> User) : Method unit :=
  fun this w => (Resolved tt, upd this, w).

(** [new Date()] *)
Definition new_Date : Method Date :=
  fun this w => (Resolved (clock w), this, w).

(** [await p]: the operation runs, the caller is suspended meanwhile. *)
Definition await {A : Type} (p : Async A) : Method A :=
  fun this w =>
    let '(o, w') := p w in (o, this, suspend w').

Definition outcome {A : Type} (r : Outcome A * User * World) : Outcome A :=
  fst (fst r).
Definition record {A : Type} (r : Outcome A * User * World) : User :=
  snd (fst r).
Definition world {A : Type} (r : Outcome A * User * World) : World :=
  snd r.

(* ================================================================== *)
(** ** The hashing library, as the entity uses it (import * as bcrypt) *)

Module bcrypt.

(** The native part of the package: salt generation, the key derivation
    and the verification of a password against a stored hash.  The entity
    never looks inside them, so they stay abstract; [encrypt] rejects a
    salt string it cannot parse. *)
Record Bindings : Type := mkBindings {
  gen_salt : Z -> Entropy -> string;
  encrypt : string -> string -> Outcome string;
  compare_sync : string -> string -> bool
}.

Fixpoint all_chars (p : ascii -> bool) (s : string) : bool :=
  match s with
  | EmptyString => true
  | String c rest => p c && all_chars p rest
  end.

Definition plain_char (c : ascii) : bool :=
  ((1 <=? nat_of_ascii c) && (nat_of_ascii c <=? 127))%nat.

(** A password the library reads byte for byte: no NUL, ASCII only (one
    byte per character), and short enough for every release of the package
    to measure its length exactly. *)
Definition plain (s : string) : bool :=
  all_chars plain_char s && (String.length s <=? 254)%nat.

(** What the package documents of its native part.
    - a salt made by [gen_salt] for a cost between 4 and 31 is accepted by
      [encrypt];
    - a password verifies against a hash made from it;
    - per the bcrypt algorithm only the first 72 bytes of a password are
      used, any further bytes are ignored when matching.
    Nothing is assumed of passwords that differ within their first 72
    bytes: whether two of them may share a hash is left open. *)
Record Contract (B : Bindings) : Prop := mkContract {
  encrypt_gen_salt :
    forall data rounds e, 4 <= rounds <= 31 ->
      exists h, encrypt B data (gen_salt B rounds e) = Resolved h;
  compare_encrypt :
    forall data salt h,
      encrypt B data salt = Resolved h -> compare_sync B data h = true;
  first_72_bytes :
    forall data data' h,
      plain data = true -> plain data' = true ->
      substring 0 72 data = substring 0 72 data' ->
      compare_sync B data h = compare_sync B data' h
}.

Section Wrapper.

Variable B : Bindings.

(** bcrypt.hash(data, rounds) with a string and a number: a salt is
    generated from fresh random bytes, then the data is encrypted. *)
Definition hash (data : string) (rounds : Z) : Async string :=
  fun w =>
    let '(e, w') := draw w in
    (encrypt B data (gen_salt B rounds e), w').

(** bcrypt.compare(data, hash): the promise is rejected when an argument
    is null or undefined, before the native part is reached. *)
Definition compare (data : string) (hash : option string) : Async bool :=
  fun w =>
    match hash with
    | None => (Rejected (JsError "data and hash arguments required"), w)
    | Some h => (Resolved (compare_sync B data h), w)
    end.

End Wrapper.

End bcrypt.

(* ================================================================== *)
(** ** The methods of the entity *)

Section Entity.

Variable B : bcrypt.Bindings.

(** canLogIn(): return this.emailConfirmationCompletedAt != null *)
Definition canLogIn : Method bool :=
  completedAt <- read emailConfirmationCompletedAt ;;
  ret (not_null completedAt).

(** resetPassword(newPassword):
      const hash = await bcrypt.hash(newPassword, User.SALT_ROUNDS)
      this.passwordHash = hash;
      this.securityOperationPerformedAt = new Date(); *)
Definition resetPassword (newPassword : string) : Method unit :=
  hash <- await (bcrypt.hash B newPassword SALT_ROUNDS) ;;
  assign (with_passwordHash (Some hash)) ;;;
  now <- new_Date ;;
  assign (with_securityOperationPerformedAt (Some now)).

(** isRightPassword(password):
      const match = await bcrypt.compare(password, this.passwordHash);
      return match; *)
Definition isRightPassword (password : string) : Method bool :=
  stored <- read passwordHash ;;
  matched <- await (bcrypt.compare B password stored) ;;
  ret matched.

End Entity.

(** Modelled from the spec: the token test of the confirmation-state
    transition, the supplied token matches [emailConfirmationToken] exactly;
    a token that was cleared matches nothing. *)
Definition token_matches (supplied : string) (stored : option string) : bool :=
  match stored with
  | Some t => String.eqb supplied t
  | None => false
  end.

(** Modelled from the spec: the expiry test of the confirmation window,
    [now - requestedAt <= EMAIL_CONFIRMATION_TIMEOUT_SECONDS], the constant
    being a number of seconds and the dates counting milliseconds. *)
Definition within_confirmation_window (requestedAt now : Date) : bool :=
  (now - requestedAt <=? seconds EMAIL_CONFIRMATION_TIMEOUT_SECONDS)%Z.

(** Modelled from the spec: confirmEmail(token), the confirmation-state
    transition, which the entity source does not contain (it declares only
    the fields and the timeout constant).  The caller supplies the token; the
    transition succeeds only if the token matches and the window is open,
    then sets [confirmedEmail = pendingEmail], clears the token and sets
    [emailConfirmationCompletedAt = now]; otherwise it fails with the single
    error [InvalidOrExpiredToken] without mutating state. *)
Definition confirmEmail (token : string) : Method unit :=
  now <- new_Date ;;
  stored <- read emailConfirmationToken ;;
  requestedAt <- read emailConfirmationRequestedAt ;;
  if token_matches token stored && within_confirmation_window requestedAt now
  then
    pending <- read pendingEmail ;;
    assign (with_confirmedEmail (Some pending)) ;;;
    assign (with_emailConfirmationToken None) ;;;
    assign (with_emailConfirmationCompletedAt (Some now))
  else throw InvalidOrExpiredToken.

(* ================================================================== *)
(** ** The phone-number rule of the registration validator *)

Module RegistrationValidator.

Inductive FieldError : Type :=
| InvalidPhoneNumber.

Definition is_digit (c : ascii) : bool :=
  ((48 <=? nat_of_ascii c) && (nat_of_ascii c <=? 57))%nat.

Definition is_plus (c : ascii) : bool := Ascii.eqb c "+"%char.

(** The digits of a string, in order; every other character is dropped. *)
Fixpoint digits_of (s : string) : string :=
  match s with
  | EmptyString => EmptyString
  | String c rest =>
      if is_digit c then String c (digits_of rest) else digits_of rest
  end.

(** How many digits an input holds. *)
Definition digit_count (s : string) : nat := String.length (digits_of s).

(** Modelled from the spec: the phone normalization of the registration
    validator, which is not in the sources.  Scan the raw string, keep the
    first [+] only if it is the first character, drop all spaces, dashes,
    parentheses and any other non-digit characters, concatenate the
    remaining digits after the optional leading [+]. *)
Definition normalizePhone (raw : string) : string :=
  match raw with
  | EmptyString => EmptyString
  | String c rest =>
      if is_plus c then String "+"%char (digits_of rest) else digits_of raw
  end.

Fixpoint all_digits (s : string) : bool :=
  match s with
  | EmptyString => true
  | String c rest => is_digit c && all_digits rest
  end.

Definition seven_to_fifteen_digits (s : string) : bool :=
  all_digits s && (7 <=? String.length s)%nat && (String.length s <=? 15)%nat.

Section Target.

(** The specification words the target pattern twice: a [+] followed by
    7 to 15 digits in the per-field table, an optional [+] before the 7
    to 15 digits in its testable properties.  The rule is kept for both
    readings. *)
Variable plus_required : bool.

(** Modelled from the spec: the target pattern of a normalized phone
    number, a leading [+] (required or optional, see above) followed by
    7 to 15 digits and nothing else. *)
Definition matches_target (s : string) : bool :=
  match s with
  | EmptyString => false
  | String c rest =>
      if is_plus c then seven_to_fifteen_digits rest
      else negb plus_required && seven_to_fifteen_digits s
  end.

(** Modelled from the spec: the phone-number field of the validator.  If
    the normalized value does not match the target pattern a field error
    [InvalidPhoneNumber] is emitted and no value is handed on; otherwise
    the value handed on is the normalized one. *)
Definition validatePhone (raw : string) : FieldError + string :=
  let normalized := normalizePhone raw in
  if matches_target normalized then inr normalized
  else inl InvalidPhoneNumber.

End Target.

(** An optional leading [+] followed by 7 to 15 digits and nothing else. *)
Definition canonical (s : string) : bool := matches_target false s.

End RegistrationValidator.

(* ================================================================== *)
(** ** A small instance of the library's native part

    The statements below hold for every native part that honours
    [bcrypt.Contract].  This instance shows the contract can be honoured and
    lets the statements be run on concrete records; it keeps the salt in the
    first 29 characters of a hash, as the library's format does, and reads 72
    bytes of the password. *)

Module Sample.

(** Exactly [n] characters of [s], padded with dots when [s] is short. *)
Fixpoint fit (n : nat) (s : string) : string :=
  match n with
  | O => EmptyString
  | S n' =>
      match s with
      | EmptyString => String "."%char (fit n' EmptyString)
      | String c rest => String c (fit n' rest)
      end
  end.

Definition cost_digits (rounds : Z) : string :=
  String (ascii_of_nat (48 + Z.to_nat (rounds / 10)))
    (String (ascii_of_nat (48 + Z.to_nat (rounds mod 10))) EmptyString).

Definition gen_salt (rounds : Z) (e : Entropy) : string :=
  "$2b$" ++ cost_digits rounds ++ "$" ++ fit 22 (string_of_list_byte e).

Definition salt_of (s : string) : string := substring 0 29 s.

Definition encrypt (data salt : string) : Outcome string :=
  if (29 <=? String.length salt)%nat
  then Resolved (salt_of salt ++ substring 0 72 data)
  else Rejected (JsError "Invalid salt").

Definition compare_sync (data h : string) : bool :=
  (29 <=? String.length h)%nat
  && String.eqb h (salt_of h ++ substring 0 72 data).

Definition bindings : bcrypt.Bindings :=
  bcrypt.mkBindings gen_salt encrypt compare_sync.

(** A record as the addUser script leaves it before a password is set, and
    one created from an external identity provider: no password hash. *)
Definition user : User :=
  {| id := 1; createdAt := 1580000000000; updatedAt := 1580000000000;
     publicId := "3f0c6f0e-7d0b-4c51-9d1e-2b0f4a5c6d7e";
     displayName := "ImperatorFuriosa";
     confirmedEmail := None; pendingEmail := "admin@example.com";
     emailConfirmationToken := Some "0123456789abcdef";
     emailConfirmationRequestedAt := 1580000000000;
     emailConfirmationCompletedAt := None;
     securityOperationPerformedAt := None;
     passwordHash := None;
     phoneNumber := None |}.

Definition world : World :=
  {| clock := 1580000060000; suspensions := 0;
     delay := fun _ => 80%N;
     draws := 0;
     randomBytes := fun _ => repeat Byte.x41 16 |}.

(** 72 characters shared by two different passwords. *)
Definition shared_prefix : string :=
  "correct horse battery staple correct horse battery staple correct horse ".

Definition new_password : string := shared_prefix ++ "1".
Definition old_password : string := shared_prefix ++ "2".

End Sample.

(** A native part that refuses the salt it generated, so that the promise
    of bcrypt.hash is rejected: the failure path of [resetPassword]. *)
Module Faulty.

Definition gen_salt (rounds : Z) (e : Entropy) : string := EmptyString.

Definition bindings : bcrypt.Bindings :=
  bcrypt.mkBindings gen_salt Sample.encrypt Sample.compare_sync.

End Faulty.

(** The rule the entity states for securityOperationPerformedAt:
      "Set when user resets password, when user is forcefully banned, etc.
       If securityOperationPerformedAt > session created at, terminate the
       user session".
    A record on which no security operation was performed terminates no
    session. *)
Definition terminates_session (u : User) (sessionCreatedAt : Date) : bool :=
  match securityOperationPerformedAt u with
  | Some performedAt => (sessionCreatedAt <? performedAt)%Z
  | None => false
  end.

(* ================================================================== *)
(** ** Running the methods *)

(** [resetPassword], step by step: one draw of random bytes, one suspension,
    then both assignments, or none of them when the hash is rejected. *)
Lemma resetPassword_run (B : bcrypt.Bindings) (newPassword : string)
      (this : User) (w : World) :
  resetPassword B newPassword this w =
  let w1 := suspend (snd (draw w)) in
  match bcrypt.encrypt B newPassword
          (bcrypt.gen_salt B SALT_ROUNDS (fst (draw w))) with
  | Resolved h =>
      (Resolved tt,
       with_securityOperationPerformedAt (Some (clock w1))
         (with_passwordHash (Some h) this),
       w1)
  | Rejected e => (Rejected e, this, w1)
  end.
Proof.
  unfold resetPassword, bind, await, bcrypt.hash, draw; cbn.
  destruct (bcrypt.encrypt B newPassword _); reflexivity.
Qed.

(** [isRightPassword], step by step. *)
Lemma isRightPassword_run (B : bcrypt.Bindings) (password : string)
      (this : User) (w : World) :
  isRightPassword B password this w =
  match passwordHash this with
  | Some h => (Resolved (bcrypt.compare_sync B password h), this, suspend w)
  | None =>
      (Rejected (JsError "data and hash arguments required"), this, suspend w)
  end.
Proof.
  unfold isRightPassword, bind, read, await, bcrypt.compare, ret.
  destruct (passwordHash this); reflexivity.
Qed.

Lemma SALT_ROUNDS_in_range : 4 <= SALT_ROUNDS <= 31.
Proof. unfold SALT_ROUNDS. lia. Qed.

(** Under the library's contract the hash of [resetPassword] is made. *)
Lemma resetPassword_hash_resolves (B : bcrypt.Bindings)
      (HB : bcrypt.Contract B) (newPassword : string) (w : World) :
  exists h,
    bcrypt.encrypt B newPassword
      (bcrypt.gen_salt B SALT_ROUNDS (fst (draw w))) = Resolved h.
Proof. apply (bcrypt.encrypt_gen_salt B HB), SALT_ROUNDS_in_range. Qed.

(* ================================================================== *)
(** ** The sample instance honours the contract *)

Lemma length_fit (n : nat) (s : string) : String.length (Sample.fit n s) = n.
Proof.
  revert s. induction n as [|n IH]; intros s; [reflexivity|].
  destruct s; cbn; now rewrite IH.
Qed.

Lemma length_substring_0 (n : nat) (s : string) :
  (n <= String.length s)%nat -> String.length (substring 0 n s) = n.
Proof.
  revert s. induction n as [|n IH]; intros s Hn.
  - now destruct s.
  - destruct s as [|c s]; cbn in *; [lia|]. rewrite IH; [reflexivity|lia].
Qed.

Lemma substring_0_append (a b : string) :
  substring 0 (String.length a) (a ++ b) = a.
Proof.
  induction a as [|c a IH]; cbn.
  - now destruct b.
  - now rewrite IH.
Qed.

Lemma length_append (a b : string) :
  String.length (a ++ b) = (String.length a + String.length b)%nat.
Proof. induction a as [|c a IH]; cbn; [reflexivity|now rewrite IH]. Qed.

Lemma length_sample_gen_salt (rounds : Z) (e : Entropy) :
  String.length (Sample.gen_salt rounds e) = 29%nat.
Proof.
  unfold Sample.gen_salt, Sample.cost_digits. cbn [append String.length].
  now rewrite length_fit.
Qed.

Lemma sample_contract : bcrypt.Contract Sample.bindings.
Proof.
  constructor; unfold Sample.bindings;
    cbn [bcrypt.encrypt bcrypt.gen_salt bcrypt.compare_sync].
  - intros data rounds e _. unfold Sample.encrypt.
    rewrite length_sample_gen_salt. cbn. eauto.
  - intros data salt h. unfold Sample.encrypt, Sample.compare_sync.
    destruct (29 <=? String.length salt)%nat eqn:Hlen; [|discriminate].
    apply Nat.leb_le in Hlen. intros [= <-].
    assert (H29 : String.length (Sample.salt_of salt) = 29%nat)
      by now apply length_substring_0.
    assert (Hsalt : Sample.salt_of (Sample.salt_of salt ++ substring 0 72 data)
                    = Sample.salt_of salt).
    { unfold Sample.salt_of at 1. rewrite <- H29 at 1.
      apply substring_0_append. }
    rewrite Hsalt, String.eqb_refl, length_append, H29.
    reflexivity.
  - intros data data' h _ _ E. unfold Sample.compare_sync. now rewrite E.
Qed.

(* ================================================================== *)
(** ** The constants *)

(** C10. The e-mail confirmation window EMAIL_CONFIRMATION_TIMEOUT_SECONDS
    is the constant 3*24*3600 = 259200 seconds, exactly three days of 24
    hours of 3600 seconds. *)
Theorem EMAIL_CONFIRMATION_TIMEOUT_SECONDS_three_days :
  EMAIL_CONFIRMATION_TIMEOUT_SECONDS = 259200
  /\ EMAIL_CONFIRMATION_TIMEOUT_SECONDS = 3 * (24 * 3600).
Proof. split; reflexivity. Qed.

(* ================================================================== *)
(** ** canLogIn *)

(** C3. For every record, canLogIn() returns, and returns true if and only
    if emailConfirmationCompletedAt is non-null; the record it leaves is the
    record it found, field for field, and the world is untouched. *)
Theorem canLogIn_iff_confirmation_completed (this : User) (w : World) :
  (outcome (canLogIn this w) = Resolved true
   <-> emailConfirmationCompletedAt this <> None)
  /\ (outcome (canLogIn this w) = Resolved false
      <-> emailConfirmationCompletedAt this = None)
  /\ record (canLogIn this w) = this
  /\ world (canLogIn this w) = w.
Proof.
  unfold canLogIn, bind, read, ret, outcome, record, world; cbn.
  destruct (emailConfirmationCompletedAt this) as [d|]; cbn;
    repeat split; intros; congruence.
Qed.

(* ================================================================== *)
(** ** resetPassword *)

(** C1, as the code has it.  For every newPassword, whatever its length,
    resetPassword succeeds: bcrypt.hash(newPassword, SALT_ROUNDS) resolves,
    passwordHash is replaced by the very hash it resolved to, whatever the
    field held before, and securityOperationPerformedAt is set to the time
    read from the clock once the awaited hash is delivered.  It has no
    minimum-length policy and never returns WeakPassword. *)
Theorem resetPassword_succeeds_for_any_length
        (B : bcrypt.Bindings) (HB : bcrypt.Contract B)
        (newPassword : string) (this : User) (w : World) :
  let r := resetPassword B newPassword this w in
  outcome r = Resolved tt
  /\ outcome r <> Rejected WeakPassword
  /\ (exists h,
        fst (bcrypt.hash B newPassword SALT_ROUNDS w) = Resolved h
        /\ passwordHash (record r) = Some h)
  /\ securityOperationPerformedAt (record r) = Some (clock (world r))
  /\ clock (world r) = clock w + Z.of_N (delay w (suspensions w)).
Proof.
  cbv zeta. rewrite resetPassword_run.
  destruct (resetPassword_hash_resolves B HB newPassword w) as [h Hh].
  rewrite Hh. cbv zeta.
  split; [reflexivity|]. split; [discriminate|]. split; [|split; reflexivity].
  exists h. split; [|reflexivity].
  unfold bcrypt.hash, draw; cbn. exact Hh.
Qed.

(** The password of the README's addUser example, five characters long, is
    accepted on a record without a hash: nothing is rejected, both fields
    are written. *)
Lemma resetPassword_admin_accepted :
  let r := resetPassword Sample.bindings "admin" Sample.user Sample.world in
  (String.length "admin" < 6)%nat
  /\ outcome r = Resolved tt
  /\ outcome r <> Rejected WeakPassword
  /\ passwordHash (record r) <> passwordHash Sample.user
  /\ securityOperationPerformedAt (record r)
     <> securityOperationPerformedAt Sample.user.
Proof.
  cbv zeta. repeat split; try (cbn; lia); vm_compute; discriminate.
Qed.

Lemma resetPassword_succeeds_for_any_length_witness :
  let r := resetPassword Sample.bindings "admin" Sample.user Sample.world in
  outcome r = Resolved tt
  /\ outcome r <> Rejected WeakPassword
  /\ (exists h,
        fst (bcrypt.hash Sample.bindings "admin" SALT_ROUNDS Sample.world)
        = Resolved h
        /\ passwordHash (record r) = Some h)
  /\ securityOperationPerformedAt (record r) = Some (clock (world r))
  /\ clock (world r)
     = clock Sample.world
       + Z.of_N (delay Sample.world (suspensions Sample.world)).
Proof.
  exact (resetPassword_succeeds_for_any_length
           Sample.bindings sample_contract "admin" Sample.user Sample.world).
Defined.

(** C4. When the hash of newPassword, salted and computed at the cost
    SALT_ROUNDS = 10, is made, resetPassword stores exactly that hash in
    passwordHash, and securityOperationPerformedAt is the time the clock
    shows when [new Date()] is evaluated, that is once the awaited hash has
    been delivered. *)
Theorem resetPassword_stores_hash_and_clock
        (B : bcrypt.Bindings) (newPassword : string) (this : User) (w : World)
        (h : string) :
  fst (bcrypt.hash B newPassword SALT_ROUNDS w) = Resolved h ->
  let r := resetPassword B newPassword this w in
  SALT_ROUNDS = 10
  /\ outcome r = Resolved tt
  /\ passwordHash (record r) = Some h
  /\ securityOperationPerformedAt (record r) = Some (clock (world r))
  /\ clock (world r) = clock w + Z.of_N (delay w (suspensions w)).
Proof.
  intros Hh r. subst r. rewrite resetPassword_run.
  unfold bcrypt.hash, draw in Hh; cbn in Hh.
  unfold draw; cbn. rewrite Hh. cbn. repeat split; reflexivity.
Qed.

Lemma resetPassword_stores_hash_and_clock_witness :
  let r := resetPassword Sample.bindings "hunter22" Sample.user Sample.world in
  passwordHash (record r) = Some "$2b$10$AAAAAAAAAAAAAAAA......hunter22"
  /\ securityOperationPerformedAt (record r) = Some 1580000060080.
Proof.
  destruct (resetPassword_stores_hash_and_clock
              Sample.bindings "hunter22" Sample.user Sample.world
              "$2b$10$AAAAAAAAAAAAAAAA......hunter22" eq_refl)
    as (_ & _ & Hhash & Htime & Hclock).
  split; [exact Hhash|]. cbv zeta. rewrite Htime, Hclock. reflexivity.
Defined.

(** C9. For every record and every newPassword, resetPassword writes no
    field but passwordHash and securityOperationPerformedAt: id, publicId,
    displayName, pendingEmail, confirmedEmail, emailConfirmationToken,
    emailConfirmationRequestedAt, emailConfirmationCompletedAt, phoneNumber,
    createdAt and updatedAt are as they were, whether the hash is made or
    rejected. *)
Theorem resetPassword_frame
        (B : bcrypt.Bindings) (newPassword : string) (this : User) (w : World) :
  let after := record (resetPassword B newPassword this w) in
  id after = id this
  /\ publicId after = publicId this
  /\ displayName after = displayName this
  /\ pendingEmail after = pendingEmail this
  /\ confirmedEmail after = confirmedEmail this
  /\ emailConfirmationToken after = emailConfirmationToken this
  /\ emailConfirmationRequestedAt after = emailConfirmationRequestedAt this
  /\ emailConfirmationCompletedAt after = emailConfirmationCompletedAt this
  /\ phoneNumber after = phoneNumber this
  /\ createdAt after = createdAt this
  /\ updatedAt after = updatedAt this.
Proof.
  cbv zeta. rewrite resetPassword_run. cbv zeta.
  destruct (bcrypt.encrypt B newPassword _); cbn; repeat split.
Qed.

(* ================================================================== *)
(** ** isRightPassword *)

(** C2, at the input where the code departs from it.  On a record whose
    passwordHash is absent, isRightPassword hands the absent hash to
    bcrypt.compare, whose promise is rejected: the method throws, it does
    not return false. *)
Theorem isRightPassword_absent_hash_rejects
        (B : bcrypt.Bindings) (candidate : string) (this : User) (w : World) :
  passwordHash this = None ->
  outcome (isRightPassword B candidate this w)
  = Rejected (JsError "data and hash arguments required")
  /\ outcome (isRightPassword B candidate this w) <> Resolved false.
Proof.
  intros Hnull. rewrite isRightPassword_run, Hnull. cbn.
  split; [reflexivity|discriminate].
Qed.

Lemma isRightPassword_absent_hash_rejects_witness :
  passwordHash Sample.user = None
  /\ outcome (isRightPassword Sample.bindings "admin" Sample.user Sample.world)
     = Rejected (JsError "data and hash arguments required").
Proof.
  split; [reflexivity|].
  apply (isRightPassword_absent_hash_rejects
           Sample.bindings "admin" Sample.user Sample.world).
  reflexivity.
Defined.

(** After a reset the record holds a hash, the new password verifies against
    it, and any candidate gets the library's verdict on that hash. *)
Lemma isRightPassword_after_reset
      (B : bcrypt.Bindings) (HB : bcrypt.Contract B)
      (new : string) (this : User) (w : World) :
  let r := resetPassword B new this w in
  exists h,
    passwordHash (record r) = Some h
    /\ bcrypt.compare_sync B new h = true
    /\ forall candidate,
         outcome (isRightPassword B candidate (record r) (world r))
         = Resolved (bcrypt.compare_sync B candidate h).
Proof.
  cbv zeta. rewrite resetPassword_run.
  destruct (resetPassword_hash_resolves B HB new w) as [h Hh].
  rewrite Hh. cbv zeta. exists h. split; [reflexivity|split].
  - exact (bcrypt.compare_encrypt B HB _ _ _ Hh).
  - intros candidate. now rewrite isRightPassword_run.
Qed.

(** C5, as the code has it.  For every record and every password new, after
    resetPassword(new), isRightPassword(new) returns true.  For any other
    password, isRightPassword returns the library's verdict on it against
    the new hash, and that verdict is true, not false, whenever the two
    passwords agree on their first 72 bytes. *)
Theorem isRightPassword_after_resetPassword
        (B : bcrypt.Bindings) (HB : bcrypt.Contract B)
        (new : string) (this : User) (w : World) :
  let r := resetPassword B new this w in
  outcome (isRightPassword B new (record r) (world r)) = Resolved true
  /\ (exists h,
        passwordHash (record r) = Some h
        /\ forall old,
             outcome (isRightPassword B old (record r) (world r))
             = Resolved (bcrypt.compare_sync B old h))
  /\ (forall old,
        bcrypt.plain old = true -> bcrypt.plain new = true ->
        substring 0 72 old = substring 0 72 new ->
        outcome (isRightPassword B old (record r) (world r)) = Resolved true).
Proof.
  cbv zeta.
  destruct (isRightPassword_after_reset B HB new this w) as (h & Hh & Hnew & Hany).
  repeat split.
  - now rewrite Hany, Hnew.
  - exists h. split; [exact Hh|exact Hany].
  - intros old Hold Hplain Hprefix.
    now rewrite Hany, (bcrypt.first_72_bytes B HB old new h Hold Hplain Hprefix), Hnew.
Qed.

Lemma isRightPassword_after_resetPassword_witness :
  let r := resetPassword Sample.bindings "hunter22" Sample.user Sample.world in
  outcome (isRightPassword Sample.bindings "hunter22" (record r) (world r))
  = Resolved true.
Proof.
  exact (proj1 (isRightPassword_after_resetPassword
                  Sample.bindings sample_contract "hunter22"
                  Sample.user Sample.world)).
Defined.

(** Two different passwords that share their first 72 bytes: after a reset to
    the one, the other is accepted too, by the sample instance and by every
    library that honours the contract. *)
Lemma isRightPassword_accepts_old_password :
  Sample.old_password <> Sample.new_password
  /\ (let r := resetPassword Sample.bindings Sample.new_password
                 Sample.user Sample.world in
      outcome (isRightPassword Sample.bindings Sample.old_password
                 (record r) (world r)) = Resolved true
      /\ outcome (isRightPassword Sample.bindings Sample.old_password
                    (record r) (world r)) <> Resolved false)
  /\ (forall B : bcrypt.Bindings, bcrypt.Contract B ->
      forall (this : User) (w : World),
        let r := resetPassword B Sample.new_password this w in
        outcome (isRightPassword B Sample.old_password (record r) (world r))
        = Resolved true).
Proof.
  split; [vm_compute; discriminate|]. split.
  - cbv zeta. split; vm_compute; [reflexivity|discriminate].
  - intros B HB this w.
    destruct (isRightPassword_after_reset B HB Sample.new_password this w)
      as (h & _ & Hnew & Hany).
    cbv zeta. rewrite Hany, <- Hnew.
    f_equal. apply (bcrypt.first_72_bytes B HB); reflexivity.
Qed.

(* ================================================================== *)
(** ** The confirmation transition *)

Lemma token_matches_iff (supplied : string) (stored : option string) :
  token_matches supplied stored = true <-> stored = Some supplied.
Proof.
  destruct stored as [t|]; cbn.
  - rewrite String.eqb_eq. split; [now intros ->|now intros [= ->]].
  - split; discriminate.
Qed.

Lemma within_confirmation_window_iff (requestedAt now : Date) :
  within_confirmation_window requestedAt now = true
  <-> now - requestedAt <= seconds EMAIL_CONFIRMATION_TIMEOUT_SECONDS.
Proof. unfold within_confirmation_window. apply Z.leb_le. Qed.

(** [confirmEmail], step by step. *)
Lemma confirmEmail_run (token : string) (this : User) (w : World) :
  confirmEmail token this w =
  if token_matches token (emailConfirmationToken this)
     && within_confirmation_window (emailConfirmationRequestedAt this) (clock w)
  then (Resolved tt,
        with_emailConfirmationCompletedAt (Some (clock w))
          (with_emailConfirmationToken None
             (with_confirmedEmail (Some (pendingEmail this)) this)),
        w)
  else (Rejected InvalidOrExpiredToken, this, w).
Proof.
  unfold confirmEmail, bind, new_Date, read, assign, throw; cbn.
  destruct (token_matches _ _ && within_confirmation_window _ _); reflexivity.
Qed.

(** C6. For every supplied token and every clock value now, the
    confirmation succeeds if and only if the token equals
    emailConfirmationToken exactly and now - emailConfirmationRequestedAt is
    at most EMAIL_CONFIRMATION_TIMEOUT_SECONDS (dates count milliseconds, the
    constant seconds).  On success confirmedEmail is pendingEmail, the token
    is cleared and emailConfirmationCompletedAt is now; otherwise the single
    error InvalidOrExpiredToken is returned and the record is the one that
    was there, field for field. *)
Theorem confirmEmail_succeeds_iff_token_and_window
        (token : string) (this : User) (w : World) :
  let now := clock w in
  let r := confirmEmail token this w in
  let redeemable :=
    emailConfirmationToken this = Some token
    /\ now - emailConfirmationRequestedAt this
       <= seconds EMAIL_CONFIRMATION_TIMEOUT_SECONDS in
  (outcome r = Resolved tt <-> redeemable)
  /\ (redeemable ->
      confirmedEmail (record r) = Some (pendingEmail this)
      /\ emailConfirmationToken (record r) = None
      /\ emailConfirmationCompletedAt (record r) = Some now)
  /\ (~ redeemable ->
      outcome r = Rejected InvalidOrExpiredToken /\ record r = this)
  /\ world r = w.
Proof.
  cbv zeta. rewrite confirmEmail_run.
  pose proof (token_matches_iff token (emailConfirmationToken this)) as Ht.
  pose proof (within_confirmation_window_iff
                (emailConfirmationRequestedAt this) (clock w)) as Hw.
  destruct (token_matches token (emailConfirmationToken this));
    destruct (within_confirmation_window
                (emailConfirmationRequestedAt this) (clock w));
    cbn; repeat split; try tauto; try discriminate;
    intros; exfalso; intuition discriminate.
Qed.

(** A token redeemed one minute after it was requested, and the same token
    four days later. *)
Lemma confirmEmail_succeeds_iff_token_and_window_witness :
  let r := confirmEmail "0123456789abcdef" Sample.user Sample.world in
  confirmedEmail (record r) = Some "admin@example.com"
  /\ emailConfirmationToken (record r) = None
  /\ emailConfirmationCompletedAt (record r) = Some 1580000060000.
Proof.
  apply (proj1 (proj2 (confirmEmail_succeeds_iff_token_and_window
                         "0123456789abcdef" Sample.user Sample.world))).
  split; [reflexivity|]. vm_compute. discriminate.
Defined.

(* ================================================================== *)
(** ** The phone-number rule *)

Module PhoneFacts.
Import RegistrationValidator.

Lemma digit_is_not_plus (c : ascii) : is_digit c = true -> is_plus c = false.
Proof.
  unfold is_plus. destruct (Ascii.eqb_spec c "+"%char) as [->|]; [|reflexivity].
  discriminate.
Qed.

Lemma all_digits_digits_of (s : string) : all_digits (digits_of s) = true.
Proof.
  induction s as [|c s IH]; cbn; [reflexivity|].
  destruct (is_digit c) eqn:Hc; cbn; [now rewrite Hc|exact IH].
Qed.

Lemma digits_of_all_digits (s : string) :
  all_digits s = true -> digits_of s = s.
Proof.
  induction s as [|c s IH]; cbn; [reflexivity|].
  intros [Hc Hs]%andb_prop. rewrite Hc. now rewrite IH.
Qed.

Lemma digits_of_idempotent (s : string) :
  digits_of (digits_of s) = digits_of s.
Proof. apply digits_of_all_digits, all_digits_digits_of. Qed.

(** A string of digits is left as it is by the normalization. *)
Lemma normalizePhone_all_digits (s : string) :
  all_digits s = true -> normalizePhone s = s.
Proof.
  destruct s as [|c s]; [reflexivity|]. intros H. unfold normalizePhone.
  pose proof H as [Hc _]%andb_prop.
  rewrite (digit_is_not_plus c Hc). now apply digits_of_all_digits.
Qed.

Lemma normalizePhone_idempotent (raw : string) :
  normalizePhone (normalizePhone raw) = normalizePhone raw.
Proof.
  destruct raw as [|c rest]; [reflexivity|].
  change (normalizePhone (String c rest))
    with (if is_plus c then String "+"%char (digits_of rest)
          else digits_of (String c rest)).
  destruct (is_plus c).
  - change (String "+"%char (digits_of (digits_of rest))
            = String "+"%char (digits_of rest)).
    now rewrite digits_of_idempotent.
  - apply normalizePhone_all_digits, all_digits_digits_of.
Qed.

Lemma seven_to_fifteen_digits_iff (s : string) :
  seven_to_fifteen_digits s = true
  <-> all_digits s = true /\ (7 <= String.length s <= 15)%nat.
Proof.
  unfold seven_to_fifteen_digits.
  rewrite !andb_true_iff, !Nat.leb_le. tauto.
Qed.

(** The pattern with a required [+] is a case of the pattern with an
    optional one. *)
Lemma matches_target_canonical (plus_required : bool) (s : string) :
  matches_target plus_required s = true -> canonical s = true.
Proof.
  unfold canonical, matches_target. destruct s as [|c s]; [discriminate|].
  destruct (is_plus c); [trivial|].
  now intros [_ H]%andb_prop.
Qed.

(** What the pattern sees of a normalized value is the digit count of the
    raw input. *)
Lemma matches_target_digit_count (plus_required : bool) (raw : string) :
  matches_target plus_required (normalizePhone raw) = true ->
  (7 <= digit_count raw <= 15)%nat.
Proof.
  unfold digit_count, normalizePhone.
  destruct raw as [|c rest]; [discriminate|].
  destruct (is_plus c) eqn:Hc.
  - cbn. assert (Hd : is_digit c = false).
    { destruct (is_digit c) eqn:E; [|reflexivity].
      now rewrite (digit_is_not_plus c E) in Hc. }
    rewrite Hd. now intros [_ H]%seven_to_fifteen_digits_iff.
  - unfold matches_target.
    destruct (digits_of (String c rest)) as [|d ds] eqn:E; [discriminate|].
    pose proof (all_digits_digits_of (String c rest)) as Hall.
    rewrite E in Hall. cbn [all_digits] in Hall.
    apply andb_prop in Hall as [Hd _].
    rewrite (digit_is_not_plus d Hd).
    intros [_ [_ H]%seven_to_fifteen_digits_iff]%andb_prop. exact H.
Qed.

End PhoneFacts.

(** C7. For every raw phone-number input the validator either hands on the
    normalized value, which then is an optional leading [+] followed by 7 to
    15 digits and nothing else, or emits the field error InvalidPhoneNumber
    and hands on no value at all; an input whose digit count is below 7 or
    above 15 is always rejected. *)
Theorem validatePhone_canonical_or_rejected
        (plus_required : bool) (raw : string) :
  match RegistrationValidator.validatePhone plus_required raw with
  | inr stored =>
      RegistrationValidator.canonical stored = true
      /\ stored = RegistrationValidator.normalizePhone raw
  | inl e => e = RegistrationValidator.InvalidPhoneNumber
  end
  /\ ((RegistrationValidator.digit_count raw < 7
       \/ 15 < RegistrationValidator.digit_count raw)%nat ->
      RegistrationValidator.validatePhone plus_required raw
      = inl RegistrationValidator.InvalidPhoneNumber).
Proof.
  unfold RegistrationValidator.validatePhone.
  destruct (RegistrationValidator.matches_target plus_required
              (RegistrationValidator.normalizePhone raw)) eqn:Hm.
  - split.
    + split; [|reflexivity].
      exact (PhoneFacts.matches_target_canonical _ _ Hm).
    + intros Hout.
      pose proof (PhoneFacts.matches_target_digit_count _ _ Hm). lia.
  - split; reflexivity.
Qed.

(** Four digits with a space between them: rejected. *)
Lemma validatePhone_canonical_or_rejected_witness :
  (RegistrationValidator.digit_count "12 34" < 7)%nat
  /\ RegistrationValidator.validatePhone true "12 34"
     = inl RegistrationValidator.InvalidPhoneNumber.
Proof.
  split; [vm_compute; lia|].
  apply (proj2 (validatePhone_canonical_or_rejected true "12 34")).
  left. vm_compute. lia.
Defined.

(** C8. For every phone-number string already in normalized form, be it a
    value the normalization produced or a value that matches the target
    pattern, applying the normalization returns the same string. *)
Theorem normalizePhone_fixes_normalized (plus_required : bool) (s : string) :
  (exists raw, s = RegistrationValidator.normalizePhone raw)
  \/ RegistrationValidator.matches_target plus_required s = true ->
  RegistrationValidator.normalizePhone s = s.
Proof.
  intros [[raw ->]|Hm].
  - apply PhoneFacts.normalizePhone_idempotent.
  - destruct s as [|c rest]; [reflexivity|].
    unfold RegistrationValidator.matches_target in Hm.
    unfold RegistrationValidator.normalizePhone.
    destruct (RegistrationValidator.is_plus c) eqn:Hc.
    + apply Ascii.eqb_eq in Hc. subst c.
      apply PhoneFacts.seven_to_fifteen_digits_iff in Hm as [Hall _].
      now rewrite (PhoneFacts.digits_of_all_digits rest Hall).
    + apply andb_prop in Hm as [_ Hm].
      apply PhoneFacts.seven_to_fifteen_digits_iff in Hm as [Hall _].
      now apply PhoneFacts.digits_of_all_digits.
Qed.

(** The number of the specification's example, once normalized. *)
Lemma normalizePhone_fixes_normalized_witness :
  RegistrationValidator.matches_target true "+15551231234" = true
  /\ RegistrationValidator.normalizePhone "+15551231234" = "+15551231234".
Proof.
  split; [reflexivity|].
  apply (normalizePhone_fixes_normalized true "+15551231234").
  right. reflexivity.
Defined.

(* ================================================================== *)
(** ** Further properties of the entity's methods *)

(** X1. When the promise of bcrypt.hash is rejected, resetPassword is
    rejected with the same error and has written nothing: the await throws
    before either assignment, so passwordHash and
    securityOperationPerformedAt, like every other field, are as they
    were. *)
Theorem resetPassword_rejected_writes_nothing
        (B : bcrypt.Bindings) (newPassword : string) (this : User) (w : World)
        (e : Error) :
  fst (bcrypt.hash B newPassword SALT_ROUNDS w) = Rejected e ->
  outcome (resetPassword B newPassword this w) = Rejected e
  /\ record (resetPassword B newPassword this w) = this.
Proof.
  intros He. unfold bcrypt.hash, draw in He; cbn in He.
  rewrite resetPassword_run. unfold draw; cbn. rewrite He.
  split; reflexivity.
Qed.

Lemma resetPassword_rejected_writes_nothing_witness :
  outcome (resetPassword Faulty.bindings "hunter22" Sample.user Sample.world)
  = Rejected (JsError "Invalid salt")
  /\ record (resetPassword Faulty.bindings "hunter22" Sample.user Sample.world)
     = Sample.user.
Proof.
  apply (resetPassword_rejected_writes_nothing
           Faulty.bindings "hunter22" Sample.user Sample.world).
  reflexivity.
Defined.

(** X2. After a successful resetPassword the rule of the entity terminates
    a session exactly when it was created before the time the method read
    from the clock; that time is not earlier than the time at which the
    method was called, so every session created before the call is
    terminated, while a session created at the very millisecond of the stamp
    or later is kept. *)
Theorem resetPassword_terminates_earlier_sessions
        (B : bcrypt.Bindings) (HB : bcrypt.Contract B)
        (newPassword : string) (this : User) (w : World)
        (sessionCreatedAt : Date) :
  let r := resetPassword B newPassword this w in
  (terminates_session (record r) sessionCreatedAt = true
   <-> sessionCreatedAt < clock (world r))
  /\ clock w <= clock (world r)
  /\ (sessionCreatedAt < clock w ->
      terminates_session (record r) sessionCreatedAt = true).
Proof.
  cbv zeta. rewrite resetPassword_run.
  destruct (resetPassword_hash_resolves B HB newPassword w) as [h ->].
  unfold terminates_session, record, world, suspend, draw; cbn.
  rewrite Z.ltb_lt. repeat split; intros; lia.
Qed.

Lemma resetPassword_terminates_earlier_sessions_witness :
  let r := resetPassword Sample.bindings "hunter22" Sample.user Sample.world in
  1580000059999 < clock Sample.world
  /\ terminates_session (record r) 1580000059999 = true.
Proof.
  split; [reflexivity|].
  apply (resetPassword_terminates_earlier_sessions
           Sample.bindings sample_contract "hunter22" Sample.user Sample.world
           1580000059999).
  reflexivity.
Defined.

(** X3. resetPassword does not change what canLogIn answers: a password
    reset neither confirms an e-mail address nor withdraws a confirmation,
    whether the hash is made or rejected and whenever canLogIn is asked. *)
Theorem resetPassword_preserves_canLogIn
        (B : bcrypt.Bindings) (newPassword : string) (this : User)
        (w w1 w2 : World) :
  outcome (canLogIn (record (resetPassword B newPassword this w)) w1)
  = outcome (canLogIn this w2).
Proof.
  rewrite resetPassword_run. cbv zeta.
  destruct (bcrypt.encrypt B newPassword _); reflexivity.
Qed.

(** X4. isRightPassword is rejected exactly when passwordHash is absent;
    with a hash present it always returns the library's verdict on the
    candidate and that hash.  In both cases it writes no field of the
    record, so a failed or successful check never logs a user out. *)
Theorem isRightPassword_rejects_iff_hash_absent
        (B : bcrypt.Bindings) (password : string) (this : User) (w : World) :
  ((exists e, outcome (isRightPassword B password this w) = Rejected e)
   <-> passwordHash this = None)
  /\ (forall h, passwordHash this = Some h ->
      outcome (isRightPassword B password this w)
      = Resolved (bcrypt.compare_sync B password h))
  /\ record (isRightPassword B password this w) = this.
Proof.
  rewrite isRightPassword_run.
  destruct (passwordHash this) as [h|]; cbn; repeat split.
  - intros [e He]. discriminate.
  - discriminate.
  - now intros h' [= ->].
  - eauto.
  - discriminate.
Qed.

Lemma isRightPassword_rejects_iff_hash_absent_witness :
  exists e,
    outcome (isRightPassword Sample.bindings "admin" Sample.user Sample.world)
    = Rejected e.
Proof.
  apply (proj1 (isRightPassword_rejects_iff_hash_absent
                  Sample.bindings "admin" Sample.user Sample.world)).
  reflexivity.
Defined.

(** X6. A successful resetPassword replaces the credentials without
    consulting them: whatever passwordHash and securityOperationPerformedAt
    held before, absent values included, the record it leaves is the
    same. *)
Theorem resetPassword_forgets_previous_credentials
        (B : bcrypt.Bindings) (HB : bcrypt.Contract B)
        (newPassword : string) (this : User) (w : World)
        (previousHash : option string) (previousOperation : option Date) :
  record (resetPassword B newPassword
            (with_securityOperationPerformedAt previousOperation
               (with_passwordHash previousHash this)) w)
  = record (resetPassword B newPassword this w).
Proof.
  rewrite !resetPassword_run.
  destruct (resetPassword_hash_resolves B HB newPassword w) as [h ->].
  reflexivity.
Qed.

Lemma resetPassword_forgets_previous_credentials_witness :
  record (resetPassword Sample.bindings "hunter22"
            (with_securityOperationPerformedAt (Some 1580000000000)
               (with_passwordHash (Some "$2b$10$AAAAAAAAAAAAAAAA......admin")
                  Sample.user))
            Sample.world)
  = record (resetPassword Sample.bindings "hunter22" Sample.user Sample.world).
Proof.
  exact (resetPassword_forgets_previous_credentials
           Sample.bindings sample_contract "hunter22" Sample.user Sample.world
           (Some "$2b$10$AAAAAAAAAAAAAAAA......admin") (Some 1580000000000)).
Defined.
